(** * boost/pool/detail/mutex.hpp

    A verification model of the light-weight mutex wrappers of Boost.Pool:
    the configuration logic of the header (which wrapper [default_mutex]
    names), the declarations of the three wrapper classes, and the run-time
    behaviour of their members on top of the operating system primitives
    they delegate to. *)

From Stdlib Require Import ZArith Lia.
From stdpp Require Import base decidable option list gmap strings.

Local Open Scope Z_scope.

(** ** Configuration (lines 38-75 and 151-157 of the header) *)

(** The three wrapper classes. *)
Inductive variant := win32_mutex | pthread_mutex | null_mutex.

Global Instance variant_eq_dec : EqDecision variant.
Proof. solve_decision. Defined.

(** Lines 40-42. *)
Definition BOOST_MUTEX_HELPER_NONE : Z := 0.
Definition BOOST_MUTEX_HELPER_WIN32 : Z := 1.
Definition BOOST_MUTEX_HELPER_PTHREAD : Z := 2.

(** The macros the header tests with [#if defined]/[#ifdef]: [true] means
    "defined".  On entry they are whatever the command line, earlier code
    and <boost/config.hpp> (line 12) made them. *)
Record flags := Flags {
  BOOST_HAS_THREADS : bool;
  BOOST_NO_MT : bool;
  BOOST_WINDOWS : bool;
  BOOST_HAS_UNISTD_H : bool;
  _POSIX_THREADS : bool;
  BOOST_HAS_PTHREADS : bool
}.

(** A build configuration: the macros on entry, and whether the platform's
    <unistd.h> defines [_POSIX_THREADS] when it is included.  The names
    BOOST_MUTEX_HELPER and BOOST_MUTEX_HELPER_* belong to the header (it
    removes them again in lines 164-167) and are undefined on entry. *)
Record config := Config {
  on_entry : flags;
  unistd_h_defines_POSIX_THREADS : bool
}.

Definition define_BOOST_NO_MT (m : flags) : flags :=
  Flags (BOOST_HAS_THREADS m) true (BOOST_WINDOWS m) (BOOST_HAS_UNISTD_H m)
        (_POSIX_THREADS m) (BOOST_HAS_PTHREADS m).

(** [#include <unistd.h>] *)
Definition include_unistd_h (c : config) (m : flags) : flags :=
  Flags (BOOST_HAS_THREADS m) (BOOST_NO_MT m) (BOOST_WINDOWS m)
        (BOOST_HAS_UNISTD_H m)
        (_POSIX_THREADS m || unistd_h_defines_POSIX_THREADS c)
        (BOOST_HAS_PTHREADS m).

(** Lines 44-46. *)
Definition autodefine_no_mt (m : flags) : flags :=
  if negb (BOOST_HAS_THREADS m) && negb (BOOST_NO_MT m)
  then define_BOOST_NO_MT m
  else m.

(** Lines 48-62: the flags afterwards and the value of BOOST_MUTEX_HELPER,
    [None] when no branch defined it. *)
Definition select_helper (c : config) (m : flags) : flags * option Z :=
  if BOOST_NO_MT m then
    (m, Some BOOST_MUTEX_HELPER_NONE)
  else
    if BOOST_WINDOWS m then
      (m, Some BOOST_MUTEX_HELPER_WIN32)
    else
      let m1 := if BOOST_HAS_UNISTD_H m then include_unistd_h c m else m in
      if _POSIX_THREADS m1 || BOOST_HAS_PTHREADS m1 then
        (m1, Some BOOST_MUTEX_HELPER_PTHREAD)
      else
        (m1, None).

Definition helper_error : string :=
  "Unable to determine platform mutex type; define BOOST_NO_MT to assume single-threaded".

(** Lines 64-66. *)
Definition check_helper (helper : option Z) : list string :=
  match helper with
  | None => [helper_error]
  | Some _ => []
  end.

(** Lines 82-149: the classes the translation unit declares, in order. *)
Definition declared_classes (m : flags) : list variant :=
  (if negb (BOOST_NO_MT m) then
     (if BOOST_WINDOWS m then [win32_mutex] else []) ++
     (if _POSIX_THREADS m || BOOST_HAS_PTHREADS m then [pthread_mutex] else [])
   else []) ++
  [null_mutex].

(** Value of an identifier inside an [#if] expression: an identifier that
    is not a macro evaluates to 0. *)
Definition if_value (helper : option Z) : Z := default 0 helper.

(** Lines 151-157: the class [default_mutex] is declared to name. *)
Definition default_mutex_typedef (helper : option Z) : option variant :=
  if if_value helper =? BOOST_MUTEX_HELPER_NONE then Some null_mutex
  else if if_value helper =? BOOST_MUTEX_HELPER_WIN32 then Some win32_mutex
  else if if_value helper =? BOOST_MUTEX_HELPER_PTHREAD then Some pthread_mutex
  else None.

(** What the header leaves behind. *)
Record translation_unit := TranslationUnit {
  diagnostics : list string;
  classes : list variant;
  default_mutex : option variant;
  macros_after : flags
}.

Definition preprocess (c : config) : translation_unit :=
  let m := autodefine_no_mt (on_entry c) in
  let '(m, helper) := select_helper c m in
  TranslationUnit (check_helper helper) (declared_classes m)
                  (default_mutex_typedef helper) m.

(** The outcome of compiling a file that includes the header and uses
    [default_mutex]: an [#error] stops the build, and so would a typedef of
    a class that was not declared. *)
Inductive build := CompileError (msg : string) | Built (v : variant).

Definition undeclared_error : string := "default_mutex names an undeclared class".

Definition compile (c : config) : build :=
  let tu := preprocess c in
  match diagnostics tu with
  | msg :: _ => CompileError msg
  | [] =>
      match default_mutex tu with
      | Some v => if decide (v ∈ classes tu) then Built v
                  else CompileError undeclared_error
      | None => CompileError undeclared_error
      end
  end.

(** BOOST_NO_MT as the selection in line 48 sees it. *)
Definition no_mt_at_selection (c : config) : bool :=
  BOOST_NO_MT (autodefine_no_mt (on_entry c)).

(** POSIX threads as line 58 sees them. *)
Definition posix_threads_detected (c : config) : bool :=
  let m := autodefine_no_mt (on_entry c) in
  let m1 := if BOOST_HAS_UNISTD_H m then include_unistd_h c m else m in
  _POSIX_THREADS m1 || BOOST_HAS_PTHREADS m1.

(** ** Class declarations (lines 86-106, 112-132 and 138-149) *)

Inductive access := Private | Public.

Inductive member_name :=
| DataMember (name : string)
| DefaultConstructor
| CopyConstructor
| CopyAssignment
| Destructor
| MemberFunction (name : string).

Global Instance member_name_eq_dec : EqDecision member_name.
Proof. solve_decision. Defined.

(** One member declaration: where it stands ([private:] or [public:]),
    whether it is [static], and whether the declaration has a body. *)
Record member := Member {
  m_access : access;
  m_name : member_name;
  m_static : bool;
  m_defined : bool
}.

(** None of the classes has a base class or a friend declaration. *)
Record class_decl := ClassDecl {
  members : list member;
  friends : list string
}.

Definition win32_mutex_decl : class_decl :=
  ClassDecl
    [ Member Private (DataMember "mtx") false true;
      Member Private CopyConstructor false false;
      Member Private CopyAssignment false false;
      Member Public DefaultConstructor false true;
      Member Public Destructor false true;
      Member Public (MemberFunction "lock") false true;
      Member Public (MemberFunction "unlock") false true ]
    [].

Definition pthread_mutex_decl : class_decl :=
  ClassDecl
    [ Member Private (DataMember "mtx") false true;
      Member Private CopyConstructor false false;
      Member Private CopyAssignment false false;
      Member Public DefaultConstructor false true;
      Member Public Destructor false true;
      Member Public (MemberFunction "lock") false true;
      Member Public (MemberFunction "unlock") false true ]
    [].

Definition null_mutex_decl : class_decl :=
  ClassDecl
    [ Member Private CopyConstructor false false;
      Member Private CopyAssignment false false;
      Member Public DefaultConstructor false true;
      Member Public (MemberFunction "lock") true true;
      Member Public (MemberFunction "unlock") true true ]
    [].

Definition decl_of (v : variant) : class_decl :=
  match v with
  | win32_mutex => win32_mutex_decl
  | pthread_mutex => pthread_mutex_decl
  | null_mutex => null_mutex_decl
  end.

Definition find_member (n : member_name) (c : class_decl) : option member :=
  find (fun m => bool_decide (m_name m = n)) (members c).

(** The language declares a public copy constructor, copy assignment
    operator and destructor for a class that declares none itself. *)
Definition implicitly_declared (n : member_name) : bool :=
  match n with
  | CopyConstructor | CopyAssignment | Destructor => true
  | _ => false
  end.

(** Whether code outside the class (neither a member nor a friend) may use
    member [n]. *)
Definition usable_by_clients (n : member_name) (c : class_decl) : bool :=
  match find_member n c with
  | Some m => match m_access m with Public => true | Private => false end
  | None => implicitly_declared n
  end.

(** Whether any code at all can use member [n] in a program that links:
    members and friends have access to everything, but a member that is
    declared without a body has no definition to link against. *)
Definition usable_at_all (n : member_name) (c : class_decl) : bool :=
  match find_member n c with
  | Some m => m_defined m
  | None => implicitly_declared n
  end.

Definition copy_constructible (c : class_decl) : bool :=
  usable_by_clients CopyConstructor c.

Definition copy_assignable (c : class_decl) : bool :=
  usable_by_clients CopyAssignment c.

Definition is_static (name : string) (c : class_decl) : bool :=
  match find_member (MemberFunction name) c with
  | Some m => m_static m
  | None => false
  end.

(** ** Calls and their outcomes *)

Definition thread := nat.

(** The address of an object: a wrapper is identified by its [this]
    pointer, its only data member [mtx] lives at that address. *)
Definition addr := N.

(** How a call ends: it returns a value and leaves a state behind, it
    never returns because the calling thread waits forever, or the
    language and the platform promise nothing about it. *)
Inductive outcome (S A : Type) :=
| Returned (a : A) (s : S)
| Blocked
| Undefined.

Arguments Returned {S A} a s.
Arguments Blocked {S A}.
Arguments Undefined {S A}.

Definition ret {S A} (a : A) : S -> outcome S A := fun s => Returned a s.

Definition bind {S A B} (f : S -> outcome S A) (g : A -> S -> outcome S B)
  : S -> outcome S B :=
  fun s =>
    match f s with
    | Returned a s' => g a s'
    | Blocked => Blocked
    | Undefined => Undefined
    end.

Notation "f ;;; g" := (bind f (fun _ => g))
  (at level 100, g at level 200, right associativity).

(** Who owns a native mutex (header, lines 29-35). *)
Inductive ownership := Unowned | OwnedBy (t : thread).

(** The native mutexes that exist, by address. *)
Record platform := Platform {
  critical_sections : gmap addr ownership;
  pthread_mutexes : gmap addr ownership
}.

(** No native mutex exists when the program starts. *)
Definition boot : platform := Platform ∅ ∅.

(** A call made by a thread on the platform. *)
Definition call (A : Type) := thread -> platform -> outcome platform A.

(** The functions of <windows.h> and <pthread.h> the wrappers call.  The
    pthread functions return a status code. *)
Record native_api := NativeApi {
  InitializeCriticalSection : addr -> call unit;
  DeleteCriticalSection : addr -> call unit;
  EnterCriticalSection : addr -> call unit;
  LeaveCriticalSection : addr -> call unit;
  pthread_mutex_init : addr -> Z -> call Z;
  pthread_mutex_destroy : addr -> call Z;
  pthread_mutex_lock : addr -> call Z;
  pthread_mutex_unlock : addr -> call Z
}.

(** ** The wrapper classes (lines 86-149) *)

Module win32_mutex.
Section members.
Variable os : native_api.

(** Line 95. *)
Definition ctor (this : addr) : call unit :=
  fun t => InitializeCriticalSection os this t.

(** Line 98. *)
Definition dtor (this : addr) : call unit :=
  fun t => DeleteCriticalSection os this t.

(** Line 101. *)
Definition lock (this : addr) : call unit :=
  fun t => EnterCriticalSection os this t.

(** Line 104. *)
Definition unlock (this : addr) : call unit :=
  fun t => LeaveCriticalSection os this t.

End members.
End win32_mutex.

Module pthread_mutex.
Section members.
Variable os : native_api.

(** Line 121: the status of [pthread_mutex_init] is dropped. *)
Definition ctor (this : addr) : call unit :=
  fun t => pthread_mutex_init os this 0 t ;;; ret tt.

(** Line 124. *)
Definition dtor (this : addr) : call unit :=
  fun t => pthread_mutex_destroy os this t ;;; ret tt.

(** Line 127. *)
Definition lock (this : addr) : call unit :=
  fun t => pthread_mutex_lock os this t ;;; ret tt.

(** Line 130. *)
Definition unlock (this : addr) : call unit :=
  fun t => pthread_mutex_unlock os this t ;;; ret tt.

End members.
End pthread_mutex.

Module null_mutex.

(** Line 145. *)
Definition ctor (this : addr) : call unit := fun t => ret tt.

(** The class declares no destructor: the implicit one does nothing. *)
Definition dtor (this : addr) : call unit := fun t => ret tt.

(** Line 147: static, there is no [this]. *)
Definition lock : call unit := fun t => ret tt.

(** Line 148: static, there is no [this]. *)
Definition unlock : call unit := fun t => ret tt.

End null_mutex.

(** The capability the three classes share.  A static member called
    through an object ignores the object. *)
Record mutex_class := MutexClass {
  construct : addr -> call unit;
  destruct : addr -> call unit;
  lock : addr -> call unit;
  unlock : addr -> call unit
}.

Definition class_of (os : native_api) (v : variant) : mutex_class :=
  match v with
  | win32_mutex =>
      MutexClass (win32_mutex.ctor os) (win32_mutex.dtor os)
                 (win32_mutex.lock os) (win32_mutex.unlock os)
  | pthread_mutex =>
      MutexClass (pthread_mutex.ctor os) (pthread_mutex.dtor os)
                 (pthread_mutex.lock os) (pthread_mutex.unlock os)
  | null_mutex =>
      MutexClass null_mutex.ctor null_mutex.dtor
                 (fun _ => null_mutex.lock) (fun _ => null_mutex.unlock)
  end.

(** ** Histories of calls *)

Inductive op := Construct | Destruct | Lock | Unlock.

(** One completed call: which thread called which member on which object. *)
Record event := Event {
  ev_thread : thread;
  ev_op : op;
  ev_this : addr
}.

Definition perform (c : mutex_class) (e : event)
  : platform -> outcome platform unit :=
  match ev_op e with
  | Construct => construct c (ev_this e) (ev_thread e)
  | Destruct => destruct c (ev_this e) (ev_thread e)
  | Lock => lock c (ev_this e) (ev_thread e)
  | Unlock => unlock c (ev_this e) (ev_thread e)
  end.

(** The calls of a history, one after the other, each returning before the
    next is counted. *)
Fixpoint run (c : mutex_class) (evs : list event)
  : platform -> outcome platform unit :=
  match evs with
  | [] => ret tt
  | e :: rest => perform c e ;;; run c rest
  end.

(** ** The native primitives *)

(** Modelled from the spec: initialisation of a native mutex
    (InitializeCriticalSection, pthread_mutex_init), which belongs to the
    operating system and not to the repository.  Spec section 3: a Lock is
    constructed into the unowned state; construction initialises the native
    handle.  Initialising a handle that is already initialised is left
    undefined. *)
Definition mutex_init (p : addr)
  : gmap addr ownership -> outcome (gmap addr ownership) unit :=
  fun m =>
    match m !! p with
    | None => Returned tt (<[p := Unowned]> m)
    | Some _ => Undefined
    end.

(** Modelled from the spec: destruction of a native mutex
    (DeleteCriticalSection, pthread_mutex_destroy), which belongs to the
    operating system.  Spec section 3: destruction releases the native
    handle; no Lock may be destroyed while owned by any thread. *)
Definition mutex_destroy (p : addr)
  : gmap addr ownership -> outcome (gmap addr ownership) unit :=
  fun m =>
    match m !! p with
    | Some Unowned => Returned tt (delete p m)
    | Some (OwnedBy _) => Undefined
    | None => Undefined
    end.

(** Modelled from the spec: acquisition of a native mutex
    (EnterCriticalSection, pthread_mutex_lock), which belongs to the
    operating system.  Header lines 32-33: to lock a mutex means to wait
    until the mutex is unowned, and then make it owned by the current
    thread.  Spec section 4.1: locking twice by the same thread is misuse,
    left to the native primitive. *)
Definition mutex_lock (p : addr) (t : thread)
  : gmap addr ownership -> outcome (gmap addr ownership) unit :=
  fun m =>
    match m !! p with
    | Some Unowned => Returned tt (<[p := OwnedBy t]> m)
    | Some (OwnedBy t') => if decide (t' = t) then Undefined else Blocked
    | None => Undefined
    end.

(** Modelled from the spec: release of a native mutex
    (LeaveCriticalSection, pthread_mutex_unlock), which belongs to the
    operating system.  Header lines 34-35: to unlock a mutex means to
    release ownership from the current thread, which must own the mutex. *)
Definition mutex_unlock (p : addr) (t : thread)
  : gmap addr ownership -> outcome (gmap addr ownership) unit :=
  fun m =>
    match m !! p with
    | Some (OwnedBy t') =>
        if decide (t' = t) then Returned tt (<[p := Unowned]> m) else Undefined
    | Some Unowned => Undefined
    | None => Undefined
    end.

Definition on_critical_sections {A}
  (f : gmap addr ownership -> outcome (gmap addr ownership) A)
  : platform -> outcome platform A :=
  fun s =>
    match f (critical_sections s) with
    | Returned a m => Returned a (Platform m (pthread_mutexes s))
    | Blocked => Blocked
    | Undefined => Undefined
    end.

Definition on_pthread_mutexes {A}
  (f : gmap addr ownership -> outcome (gmap addr ownership) A)
  : platform -> outcome platform A :=
  fun s =>
    match f (pthread_mutexes s) with
    | Returned a m => Returned a (Platform (critical_sections s) m)
    | Blocked => Blocked
    | Undefined => Undefined
    end.

(** A pthread function that succeeded returns 0. *)
Definition succeed {S} (f : S -> outcome S unit) : S -> outcome S Z :=
  f ;;; ret 0.

(** Modelled from the spec: the platform, that is the eight functions of
    <windows.h> and <pthread.h> the header calls, which belong to the
    operating system.  Both families follow the ownership rules above; the
    wrapper passes a null attribute pointer to [pthread_mutex_init], which
    asks for a default mutex. *)
Definition documented : native_api :=
  NativeApi
    (fun p t => on_critical_sections (mutex_init p))
    (fun p t => on_critical_sections (mutex_destroy p))
    (fun p t => on_critical_sections (mutex_lock p t))
    (fun p t => on_critical_sections (mutex_unlock p t))
    (fun p attr t =>
       if attr =? 0 then on_pthread_mutexes (succeed (mutex_init p))
       else fun _ => Undefined)
    (fun p t => on_pthread_mutexes (succeed (mutex_destroy p)))
    (fun p t => on_pthread_mutexes (succeed (mutex_lock p t)))
    (fun p t => on_pthread_mutexes (succeed (mutex_unlock p t))).

(** The native mutexes the objects of a class own. *)
Definition native_mutexes (v : variant) (s : platform) : gmap addr ownership :=
  match v with
  | win32_mutex => critical_sections s
  | pthread_mutex => pthread_mutexes s
  | null_mutex => ∅
  end.

(** A platform with the native mutexes of class [v] replaced. *)
Definition set_native_mutexes (v : variant) (m : gmap addr ownership)
    (s : platform) : platform :=
  match v with
  | win32_mutex => Platform m (pthread_mutexes s)
  | pthread_mutex => Platform (critical_sections s) m
  | null_mutex => s
  end.

(** What a call of a native class does to the native mutexes of its
    family on the documented platform. *)
Definition native_step (e : event)
  : gmap addr ownership -> outcome (gmap addr ownership) unit :=
  match ev_op e with
  | Construct => mutex_init (ev_this e)
  | Destruct => mutex_destroy (ev_this e)
  | Lock => mutex_lock (ev_this e) (ev_thread e)
  | Unlock => mutex_unlock (ev_this e) (ev_thread e)
  end.

Fixpoint native_run (evs : list event)
  : gmap addr ownership -> outcome (gmap addr ownership) unit :=
  match evs with
  | [] => ret tt
  | e :: rest => native_step e ;;; native_run rest
  end.

(** ** Ownership as a history shows it *)

Fixpoint remove_first (t : thread) (h : list thread) : list thread :=
  match h with
  | [] => []
  | x :: rest => if decide (x = t) then rest else x :: remove_first t rest
  end.

(** Ownership (spec glossary): a thread owns a lock when it has completed
    [lock()] without a matching [unlock()] yet.  [track a h e] updates the
    threads [h] that own the object at [a] by the completed call [e]; a
    newly constructed object is owned by nobody. *)
Definition track (a : addr) (h : list thread) (e : event) : list thread :=
  if decide (ev_this e = a) then
    match ev_op e with
    | Construct => []
    | Destruct => h
    | Lock => ev_thread e :: h
    | Unlock => remove_first (ev_thread e) h
    end
  else h.

Definition holders (a : addr) (evs : list event) : list thread :=
  fold_left (track a) evs [].

(** Whether an object lives at [a]: constructed and not destructed since. *)
Definition lives (a : addr) (alive : bool) (e : event) : bool :=
  if decide (ev_this e = a) then
    match ev_op e with
    | Construct => true
    | Destruct => false
    | Lock | Unlock => alive
    end
  else alive.

Definition live (a : addr) (evs : list event) : bool :=
  fold_left (lives a) evs false.

(** A native mutex (or its absence) at an address agrees with what the
    history says about the object there. *)
Definition agrees (o : option ownership) (alive : bool) (h : list thread)
  : Prop :=
  match o with
  | None => alive = false /\ h = []
  | Some Unowned => alive = true /\ h = []
  | Some (OwnedBy t) => alive = true /\ h = [t]
  end.

(** The two-state ownership machine of spec section 3, read off the
    histories of a class: in every history whose calls all returned, and
    for every object,
    - the object is unowned or owned by exactly one thread;
    - [lock()] on a live unowned object returns and makes the caller the
      owner;
    - [lock()] does not return while another thread is the owner;
    - [unlock()] by the owner returns and leaves the object unowned;
    - a constructor that returns leaves the object unowned. *)
Definition ownership_machine (c : mutex_class) : Prop :=
  forall (evs : list event) (s : platform),
    run c evs boot = Returned tt s ->
    forall a : addr,
      (holders a evs = [] \/ exists t, holders a evs = [t]) /\
      (forall t, live a evs = true -> holders a evs = [] ->
         exists s', perform c (Event t Lock a) s = Returned tt s' /\
                    holders a (evs ++ [Event t Lock a]) = [t]) /\
      (forall t t', t' ∈ holders a evs -> t <> t' ->
         perform c (Event t Lock a) s = Blocked) /\
      (forall t, t ∈ holders a evs ->
         exists s', perform c (Event t Unlock a) s = Returned tt s' /\
                    holders a (evs ++ [Event t Unlock a]) = []) /\
      (forall t s', perform c (Event t Construct a) s = Returned tt s' ->
         holders a (evs ++ [Event t Construct a]) = [] /\
         exists s'', perform c (Event t Lock a) s' = Returned tt s'').

(** A status code is dropped. *)
Definition drop_status {S} (o : outcome S Z) : outcome S unit :=
  match o with
  | Returned _ s => Returned tt s
  | Blocked => Blocked
  | Undefined => Undefined
  end.

(** A platform on which every pthread call fails with ENOMEM and changes
    nothing, to exercise the wrappers on failing native calls. *)
Definition ENOMEM : Z := 12.

Definition failing : native_api :=
  NativeApi
    (fun p t s => Returned tt s)
    (fun p t s => Returned tt s)
    (fun p t s => Returned tt s)
    (fun p t s => Returned tt s)
    (fun p attr t s => Returned ENOMEM s)
    (fun p t s => Returned ENOMEM s)
    (fun p t s => Returned ENOMEM s)
    (fun p t s => Returned ENOMEM s).

(** Histories that construct the objects [cs] and then destruct [ds]. *)
Definition constructions (cs : list (thread * addr)) : list event :=
  map (fun '(t, a) => Event t Construct a) cs.

Definition destructions (ds : list (thread * addr)) : list event :=
  map (fun '(t, a) => Event t Destruct a) ds.

(** ** System headers and repeated configuration *)

(** Lines 12, 55-57 and 68-75: the headers the file includes, in order.
    <unistd.h> is only reached on the branch without BOOST_NO_MT and
    without BOOST_WINDOWS; lines 68-75 test the macros as lines 48-62 left
    them. *)
Definition included_headers (c : config) : list string :=
  let m := autodefine_no_mt (on_entry c) in
  let m' := fst (select_helper c m) in
  ["boost/config.hpp"] ++
  (if negb (BOOST_NO_MT m) && negb (BOOST_WINDOWS m) && BOOST_HAS_UNISTD_H m
   then ["unistd.h"] else []) ++
  (if negb (BOOST_NO_MT m') then
     (if BOOST_WINDOWS m' then ["windows.h"] else []) ++
     (if _POSIX_THREADS m' || BOOST_HAS_PTHREADS m' then ["pthread.h"] else [])
   else []).

(** The same build with BOOST_NO_MT defined before the header is included
    (header, lines 24-27). *)
Definition with_BOOST_NO_MT (c : config) : config :=
  Config (define_BOOST_NO_MT (on_entry c)) (unistd_h_defines_POSIX_THREADS c).

(** A later pass over lines 38-75 that starts from the macros an earlier
    pass left behind (the names of lines 40-42 and BOOST_MUTEX_HELPER are
    undefined again by lines 164-167). *)
Definition reprocess (c : config) : config :=
  Config (macros_after (preprocess c)) (unistd_h_defines_POSIX_THREADS c).

(** A flag that is defined stays defined. *)
Definition flags_le (m m' : flags) : Prop :=
  (BOOST_HAS_THREADS m = BOOST_HAS_THREADS m') /\
  (BOOST_NO_MT m = true -> BOOST_NO_MT m' = true) /\
  (BOOST_WINDOWS m = BOOST_WINDOWS m') /\
  (BOOST_HAS_UNISTD_H m = BOOST_HAS_UNISTD_H m') /\
  (_POSIX_THREADS m = true -> _POSIX_THREADS m' = true) /\
  (BOOST_HAS_PTHREADS m = BOOST_HAS_PTHREADS m').

(** A platform that behaves like [os] on POSIX mutexes but reports ENOMEM
    from every pthread call that returns, and whose critical-section
    functions do nothing. *)
Definition misreporting (os : native_api) : native_api :=
  NativeApi
    (fun p t s => Returned tt s)
    (fun p t s => Returned tt s)
    (fun p t s => Returned tt s)
    (fun p t s => Returned tt s)
    (fun p attr t s => (pthread_mutex_init os p attr t ;;; ret ENOMEM) s)
    (fun p t s => (pthread_mutex_destroy os p t ;;; ret ENOMEM) s)
    (fun p t s => (pthread_mutex_lock os p t ;;; ret ENOMEM) s)
    (fun p t s => (pthread_mutex_unlock os p t ;;; ret ENOMEM) s).

(** A platform with the critical sections of [os] and no working pthread
    function. *)
Definition win32_only (os : native_api) : native_api :=
  NativeApi
    (InitializeCriticalSection os)
    (DeleteCriticalSection os)
    (EnterCriticalSection os)
    (LeaveCriticalSection os)
    (fun p attr t s => Undefined)
    (fun p t s => Undefined)
    (fun p t s => Undefined)
    (fun p t s => Undefined).

(** All the calls of a history are made on objects other than [a]. *)
Definition elsewhere (a : addr) (evs : list event) : Prop :=
  Forall (fun e => ev_this e <> a) evs.

(** An outcome on the native mutexes, with the mutex at [a] set to [x]
    afterwards. *)
Definition lift_insert (a : addr) (x : ownership)
    (o : outcome (gmap addr ownership) unit)
  : outcome (gmap addr ownership) unit :=
  match o with
  | Returned u m => Returned u (<[a := x]> m)
  | Blocked => Blocked
  | Undefined => Undefined
  end.

(** ** Sample configurations *)

Definition posix_with_threads : config :=
  Config (Flags true false false true false false) true.

Definition windows_with_threads : config :=
  Config (Flags true false true false false false) false.

Definition windows_no_mt : config :=
  Config (Flags true true true false false false) false.

Definition threads_without_mutexes : config :=
  Config (Flags true false false true false false) false.

Definition bare_platform : config :=
  Config (Flags false false false false false false) false.

(** ** Sample histories *)

Definition contended : list event :=
  [Event 0%nat Construct 7%N; Event 1%nat Lock 7%N;
   Event 1%nat Unlock 7%N; Event 2%nat Lock 7%N].

Definition two_lockers : list event :=
  [Event 0%nat Construct 7%N; Event 1%nat Lock 7%N; Event 2%nat Lock 7%N].

Definition three_objects : list (thread * addr) :=
  [(0%nat, 1%N); (0%nat, 2%N); (1%nat, 3%N)].

Definition three_objects_shuffled : list (thread * addr) :=
  [(1%nat, 2%N); (0%nat, 3%N); (0%nat, 1%N)].

Definition windows_with_pthreads : config :=
  Config (Flags true false true true true false) true.

Definition busy_elsewhere : list event :=
  [Event 0%nat Construct 1%N; Event 0%nat Construct 2%N;
   Event 1%nat Lock 1%N; Event 2%nat Lock 2%N; Event 1%nat Unlock 1%N].

(** * Properties *)

(** ** Configuration *)

Lemma no_mt_at_selection_spec (c : config) :
  no_mt_at_selection c =
  BOOST_NO_MT (on_entry c) || negb (BOOST_HAS_THREADS (on_entry c)).
Proof.
  unfold no_mt_at_selection, autodefine_no_mt.
  destruct c as [[ht nm w u p hp] ud]; simpl.
  destruct ht, nm; reflexivity.
Qed.

Ltac config_cases c :=
  destruct c as [[[] [] [] [] [] []] []]; try discriminate;
  vm_compute; try reflexivity.

(** The class [default_mutex] names is always one that was declared: the
    conditions of lines 82-134 agree with those of lines 48-62. *)
Lemma default_mutex_declared (c : config) (v : variant) :
  diagnostics (preprocess c) = [] ->
  default_mutex (preprocess c) = Some v ->
  v ∈ classes (preprocess c).
Proof.
  destruct c as [[[] [] [] [] [] []] []]; vm_compute;
    intros Hd Hv; try discriminate Hd;
    injection Hv as <-; repeat constructor.
Qed.

(** The full table of line 48-66: what a build ends in. *)
Lemma compile_cases (c : config) :
  compile c =
  if no_mt_at_selection c then Built null_mutex
  else if BOOST_WINDOWS (on_entry c) then Built win32_mutex
  else if posix_threads_detected c then Built pthread_mutex
  else CompileError helper_error.
Proof. config_cases c. Qed.

(** When the [#error] of line 65 fires, the typedef of line 152 is the one
    the preprocessor keeps (an undefined BOOST_MUTEX_HELPER compares equal
    to 0): only the error keeps the build from using [null_mutex]. *)
Lemma error_masks_null_typedef (c : config) :
  diagnostics (preprocess c) <> [] ->
  default_mutex (preprocess c) = Some null_mutex.
Proof.
  destruct c as [[[] [] [] [] [] []] []]; vm_compute; intros H;
    try reflexivity; exfalso; apply H; reflexivity.
Qed.

(** C2: the class [default_mutex] names.  With BOOST_NO_MT defined when
    line 48 is reached the build uses [null_mutex], whatever the platform;
    otherwise with BOOST_WINDOWS it uses [win32_mutex]; otherwise, with
    POSIX threads detected in line 58, it uses [pthread_mutex].  A build
    that succeeds has exactly one class behind [default_mutex]. *)
Theorem default_mutex_selection (c : config) :
  (no_mt_at_selection c = true -> compile c = Built null_mutex) /\
  (no_mt_at_selection c = false -> BOOST_WINDOWS (on_entry c) = true ->
   compile c = Built win32_mutex) /\
  (no_mt_at_selection c = false -> BOOST_WINDOWS (on_entry c) = false ->
   posix_threads_detected c = true -> compile c = Built pthread_mutex) /\
  (forall v, compile c = Built v ->
     default_mutex (preprocess c) = Some v /\
     v ∈ classes (preprocess c) /\
     forall v', default_mutex (preprocess c) = Some v' -> v' = v).
Proof.
  rewrite compile_cases.
  split; [| split; [| split]].
  - intros ->. reflexivity.
  - intros -> ->. reflexivity.
  - intros -> -> ->. reflexivity.
  - intros v Hv. rewrite <- compile_cases in Hv.
    assert (Hd : diagnostics (preprocess c) = []).
    { unfold compile in Hv. destruct (diagnostics (preprocess c)); congruence. }
    assert (Hm : default_mutex (preprocess c) = Some v).
    { unfold compile in Hv. rewrite Hd in Hv.
      destruct (default_mutex (preprocess c)) as [v0|]; [| discriminate].
      destruct (decide (v0 ∈ classes (preprocess c))); congruence. }
    split; [exact Hm | split].
    + apply default_mutex_declared; assumption.
    + intros v' Hv'. congruence.
Qed.

Lemma default_mutex_selection_witness :
  compile windows_no_mt = Built null_mutex /\
  compile windows_with_threads = Built win32_mutex /\
  compile posix_with_threads = Built pthread_mutex /\
  default_mutex (preprocess posix_with_threads) = Some pthread_mutex.
Proof.
  split; [| split; [| split]].
  - apply (default_mutex_selection windows_no_mt). reflexivity.
  - apply (default_mutex_selection windows_with_threads); reflexivity.
  - apply (default_mutex_selection posix_with_threads); reflexivity.
  - destruct (default_mutex_selection posix_with_threads) as (_ & _ & _ & H).
    apply (H pthread_mutex). reflexivity.
Defined.

(** C3: with BOOST_NO_MT not defined when line 48 is reached (neither on
    entry nor by lines 44-46), BOOST_WINDOWS not defined and no POSIX
    threads detected in line 58, the [#error] of line 65 is the build's
    result, and no class is chosen: not [null_mutex] either. *)
Theorem undetected_platform_fails (c : config) :
  no_mt_at_selection c = false ->
  BOOST_WINDOWS (on_entry c) = false ->
  posix_threads_detected c = false ->
  diagnostics (preprocess c) = [helper_error] /\
  compile c = CompileError helper_error /\
  forall v, compile c <> Built v.
Proof.
  intros Hmt Hw Hp. rewrite compile_cases, Hmt, Hw, Hp.
  repeat split; [| discriminate].
  revert Hmt Hw Hp. config_cases c.
Qed.

Lemma undetected_platform_fails_witness :
  diagnostics (preprocess threads_without_mutexes) = [helper_error] /\
  compile threads_without_mutexes = CompileError helper_error /\
  forall v, compile threads_without_mutexes <> Built v.
Proof.
  apply (undetected_platform_fails threads_without_mutexes); reflexivity.
Defined.

(** C9: with BOOST_HAS_THREADS and BOOST_NO_MT both undefined on entry,
    the header defines BOOST_NO_MT itself (it is still defined afterwards),
    reports nothing, and [default_mutex] is [null_mutex], whatever the
    other macros say. *)
Theorem no_threads_selects_null (c : config) :
  BOOST_HAS_THREADS (on_entry c) = false ->
  BOOST_NO_MT (on_entry c) = false ->
  BOOST_NO_MT (macros_after (preprocess c)) = true /\
  diagnostics (preprocess c) = [] /\
  default_mutex (preprocess c) = Some null_mutex /\
  classes (preprocess c) = [null_mutex] /\
  compile c = Built null_mutex.
Proof.
  destruct c as [[ht nm w u p hp] ud]; simpl. intros -> ->.
  destruct w, u, p, hp, ud; vm_compute; repeat split; reflexivity.
Qed.

Lemma no_threads_selects_null_witness :
  BOOST_NO_MT (macros_after (preprocess bare_platform)) = true /\
  diagnostics (preprocess bare_platform) = [] /\
  default_mutex (preprocess bare_platform) = Some null_mutex /\
  classes (preprocess bare_platform) = [null_mutex] /\
  compile bare_platform = Built null_mutex.
Proof.
  apply (no_threads_selects_null bare_platform); reflexivity.
Defined.

(** ** Declarations *)

(** C6: none of the three classes can be copied or assigned.  Each
    declares its copy constructor and its copy assignment operator itself,
    in the private part and without a body, and names no friend: code
    outside the class has no access to them, and no code at all has a
    definition to call. *)
Theorem locks_not_copyable (v : variant) :
  copy_constructible (decl_of v) = false /\
  copy_assignable (decl_of v) = false /\
  usable_at_all CopyConstructor (decl_of v) = false /\
  usable_at_all CopyAssignment (decl_of v) = false /\
  friends (decl_of v) = [].
Proof. destruct v; vm_compute; repeat split; reflexivity. Qed.

(** The members the classes offer to their callers are the same four for
    the two native classes; [null_mutex] leaves the destructor to the
    language. *)
Lemma capability_surface (v : variant) :
  usable_by_clients DefaultConstructor (decl_of v) = true /\
  usable_by_clients Destructor (decl_of v) = true /\
  usable_by_clients (MemberFunction "lock") (decl_of v) = true /\
  usable_by_clients (MemberFunction "unlock") (decl_of v) = true.
Proof. destruct v; vm_compute; repeat split; reflexivity. Qed.

(** ** Calls *)

Lemma bind_returned {S A B} (f : S -> outcome S A) (g : A -> S -> outcome S B)
    (s s' : S) (b : B) :
  bind f g s = Returned b s' <->
  exists a s1, f s = Returned a s1 /\ g a s1 = Returned b s'.
Proof.
  unfold bind. split.
  - destruct (f s) as [a s1| |]; try discriminate. eauto.
  - intros (a & s1 & -> & Hg). exact Hg.
Qed.

Lemma run_app (c : mutex_class) (evs1 evs2 : list event) (s : platform) :
  run c (evs1 ++ evs2) s = (run c evs1 ;;; run c evs2) s.
Proof.
  revert s. induction evs1 as [|e evs1 IH]; intros s; simpl.
  - reflexivity.
  - unfold bind in *. destruct (perform c e s) as [[] s1| |]; try reflexivity.
    apply IH.
Qed.

Lemma run_snoc (c : mutex_class) (evs : list event) (e : event)
    (s s' : platform) :
  run c (evs ++ [e]) s = Returned tt s' <->
  exists s1, run c evs s = Returned tt s1 /\ perform c e s1 = Returned tt s'.
Proof.
  rewrite run_app, bind_returned. simpl. split.
  - intros ([] & s1 & Hr & He). exists s1. split; [exact Hr |].
    apply bind_returned in He as ([] & s2 & He & [= ->]). exact He.
  - intros (s1 & Hr & He). exists tt, s1. split; [exact Hr |].
    apply bind_returned. exists tt, s'. split; [exact He | reflexivity].
Qed.

(** *** The class without synchronisation *)

Lemma null_mutex_perform (os : native_api) (e : event) (s : platform) :
  perform (class_of os null_mutex) e s = Returned tt s.
Proof. destruct e as [t [] a]; reflexivity. Qed.

Lemma run_null_mutex (os : native_api) (evs : list event) (s : platform) :
  run (class_of os null_mutex) evs s = Returned tt s.
Proof.
  induction evs as [|e evs IH]; [reflexivity |].
  cbn [run]. unfold bind. rewrite null_mutex_perform. exact IH.
Qed.

(** C4: on any platform and in any state, each call of a member of
    [null_mutex], by any thread and through any object, returns and leaves
    the state as it was; so does every history of such calls, of any
    length and in any order: no call waits, none is undefined, none
    reports anything. *)
Theorem null_mutex_inert (os : native_api) (s : platform) :
  (forall t, null_mutex.lock t s = Returned tt s /\
             null_mutex.unlock t s = Returned tt s) /\
  (forall e, perform (class_of os null_mutex) e s = Returned tt s) /\
  (forall evs, run (class_of os null_mutex) evs s = Returned tt s).
Proof.
  split; [| split].
  - intros t. split; reflexivity.
  - intros e. apply null_mutex_perform.
  - intros evs. apply run_null_mutex.
Qed.

(** *** Status codes *)

Lemma drop_status_bind (f : platform -> outcome platform Z) (s : platform) :
  (f ;;; ret tt) s = drop_status (f s).
Proof. unfold bind, drop_status, ret. destruct (f s); reflexivity. Qed.

(** C8: on any platform, whatever its functions do and return, every
    member of every class ends the way the native call it makes ends, with
    the status code (if the native function has one) dropped: a member
    returns [tt] whenever the native call returns, also when the status
    reports a failure; the members of [null_mutex] always return. *)
Theorem no_error_surfaced (os : native_api) (this : addr) (t : thread)
    (s : platform) :
  (win32_mutex.ctor os this t s = InitializeCriticalSection os this t s /\
   win32_mutex.dtor os this t s = DeleteCriticalSection os this t s /\
   win32_mutex.lock os this t s = EnterCriticalSection os this t s /\
   win32_mutex.unlock os this t s = LeaveCriticalSection os this t s) /\
  (pthread_mutex.ctor os this t s
     = drop_status (pthread_mutex_init os this 0 t s) /\
   pthread_mutex.dtor os this t s
     = drop_status (pthread_mutex_destroy os this t s) /\
   pthread_mutex.lock os this t s
     = drop_status (pthread_mutex_lock os this t s) /\
   pthread_mutex.unlock os this t s
     = drop_status (pthread_mutex_unlock os this t s)) /\
  (null_mutex.ctor this t s = Returned tt s /\
   null_mutex.dtor this t s = Returned tt s /\
   null_mutex.lock t s = Returned tt s /\
   null_mutex.unlock t s = Returned tt s).
Proof.
  split; [| split].
  - split; [| split; [| split]]; reflexivity.
  - split; [| split; [| split]]; apply drop_status_bind.
  - split; [| split; [| split]]; reflexivity.
Qed.

(** A constructor, a destructor, [lock()] and [unlock()] all return on a
    platform whose every pthread call fails with ENOMEM. *)
Example failures_swallowed (e : event) (s : platform) :
  pthread_mutex_init failing (ev_this e) 0 (ev_thread e) s = Returned ENOMEM s /\
  perform (class_of failing pthread_mutex) e s = Returned tt s.
Proof. destruct e as [t [] a]; split; reflexivity. Qed.

(** C10: [lock] and [unlock] of [null_mutex] are declared static, those of
    the two native classes are not.  The static members take no object:
    they return on a platform on which no object was ever constructed,
    through whichever object they are called, and in whatever state.  A
    member of a native class depends on its object: on the documented
    platform it returns for one object and is undefined for another. *)
Theorem null_mutex_members_static :
  (is_static "lock" (decl_of null_mutex) = true /\
   is_static "unlock" (decl_of null_mutex) = true) /\
  (forall v, v <> null_mutex ->
     is_static "lock" (decl_of v) = false /\
     is_static "unlock" (decl_of v) = false) /\
  (forall t, null_mutex.lock t boot = Returned tt boot /\
             null_mutex.unlock t boot = Returned tt boot) /\
  (forall os this t s,
     lock (class_of os null_mutex) this t s = null_mutex.lock t s /\
     unlock (class_of os null_mutex) this t s = null_mutex.unlock t s /\
     null_mutex.lock t s = Returned tt s /\
     null_mutex.unlock t s = Returned tt s) /\
  (forall v, v <> null_mutex ->
     exists this1 this2 t s,
       lock (class_of documented v) this1 t s
         <> lock (class_of documented v) this2 t s /\
       unlock (class_of documented v) this1 t s
         <> unlock (class_of documented v) this2 t s).
Proof.
  split; [| split; [| split; [| split]]].
  - split; reflexivity.
  - intros [] H; try congruence; split; reflexivity.
  - intros t. split; reflexivity.
  - intros os this t s. repeat split.
  - intros v Hv. exists 1%N, 2%N, 1%nat.
    destruct v; try congruence.
    + exists (Platform (<[1%N := Unowned]> {[ 2%N := OwnedBy 1%nat ]}) ∅).
      split; vm_compute; discriminate.
    + exists (Platform ∅ (<[1%N := Unowned]> {[ 2%N := OwnedBy 1%nat ]})).
      split; vm_compute; discriminate.
Qed.

(** ** The native classes on the documented platform *)

Lemma native_mutexes_set (v : variant) (m : gmap addr ownership)
    (s : platform) :
  v <> null_mutex -> native_mutexes v (set_native_mutexes v m s) = m.
Proof. destruct v; [reflexivity..| congruence]. Qed.

Lemma set_native_mutexes_set (v : variant) (m m' : gmap addr ownership)
    (s : platform) :
  set_native_mutexes v m' (set_native_mutexes v m s) = set_native_mutexes v m' s.
Proof. destruct v; reflexivity. Qed.

Lemma set_native_mutexes_id (v : variant) (s : platform) :
  set_native_mutexes v (native_mutexes v s) s = s.
Proof. destruct v, s; reflexivity. Qed.

(** A member of a native class does to the platform what the native call
    does to the mutexes of its family, and nothing else. *)
Lemma perform_native (v : variant) (e : event) (s : platform) :
  v <> null_mutex ->
  perform (class_of documented v) e s =
  match native_step e (native_mutexes v s) with
  | Returned _ m => Returned tt (set_native_mutexes v m s)
  | Blocked => Blocked
  | Undefined => Undefined
  end.
Proof.
  intros Hv. destruct e as [t o a], v; try congruence; destruct o;
    unfold perform, native_step; cbn;
    unfold win32_mutex.ctor, win32_mutex.dtor, win32_mutex.lock,
      win32_mutex.unlock, pthread_mutex.ctor, pthread_mutex.dtor,
      pthread_mutex.lock, pthread_mutex.unlock; cbn;
    unfold on_critical_sections, on_pthread_mutexes, succeed, bind, ret;
    match goal with
    | |- context [mutex_init ?a ?m] => destruct (mutex_init a m) as [[] ?| |]
    | |- context [mutex_destroy ?a ?m] =>
        destruct (mutex_destroy a m) as [[] ?| |]
    | |- context [mutex_lock ?a ?t ?m] =>
        destruct (mutex_lock a t m) as [[] ?| |]
    | |- context [mutex_unlock ?a ?t ?m] =>
        destruct (mutex_unlock a t m) as [[] ?| |]
    end; reflexivity.
Qed.

Lemma run_native (v : variant) (evs : list event) (s : platform) :
  v <> null_mutex ->
  run (class_of documented v) evs s =
  match native_run evs (native_mutexes v s) with
  | Returned _ m => Returned tt (set_native_mutexes v m s)
  | Blocked => Blocked
  | Undefined => Undefined
  end.
Proof.
  intros Hv. revert s. induction evs as [|e evs IH]; intros s.
  - cbn. unfold ret. rewrite set_native_mutexes_id. reflexivity.
  - cbn [run native_run]. unfold bind. rewrite perform_native by exact Hv.
    destruct (native_step e (native_mutexes v s)) as [[] m| |];
      try reflexivity.
    rewrite IH, native_mutexes_set by exact Hv.
    destruct (native_run evs m) as [[] m'| |]; try reflexivity.
    rewrite set_native_mutexes_set. reflexivity.
Qed.

Lemma native_run_snoc (evs : list event) (e : event)
    (m m' : gmap addr ownership) :
  native_run (evs ++ [e]) m = Returned tt m' <->
  exists m1, native_run evs m = Returned tt m1 /\
             native_step e m1 = Returned tt m'.
Proof.
  revert m. induction evs as [|e0 evs IH]; intros m; cbn [app native_run].
  - unfold bind, ret. split.
    + destruct (native_step e m) as [[] m1| |] eqn:He; try discriminate.
      intros [= ->]. exists m. split; [reflexivity | exact He].
    + intros (m1 & [= <-] & ->). reflexivity.
  - unfold bind. destruct (native_step e0 m) as [[] m0| |].
    + apply IH.
    + split; [discriminate | intros (? & ? & _); discriminate].
    + split; [discriminate | intros (? & ? & _); discriminate].
Qed.

Lemma holders_snoc (a : addr) (evs : list event) (e : event) :
  holders a (evs ++ [e]) = track a (holders a evs) e.
Proof. unfold holders. rewrite fold_left_app. reflexivity. Qed.

Lemma live_snoc (a : addr) (evs : list event) (e : event) :
  live a (evs ++ [e]) = lives a (live a evs) e.
Proof. unfold live. rewrite fold_left_app. reflexivity. Qed.

(** Isolation: a call on one object leaves the native mutexes of all other
    objects alone. *)
Lemma native_step_frame (e : event) (m m' : gmap addr ownership) (a : addr) :
  native_step e m = Returned tt m' -> ev_this e <> a -> m' !! a = m !! a.
Proof.
  destruct e as [t o p]. unfold native_step. cbn. intros He Hne.
  destruct o; cbn in He;
    unfold mutex_init, mutex_destroy, mutex_lock, mutex_unlock in He;
    destruct (m !! p) as [[|t']|]; try discriminate;
    try (destruct (decide (t' = t)) as [->|]; try discriminate);
    injection He as <-;
    rewrite ?lookup_insert_ne, ?lookup_delete_ne by exact Hne;
    reflexivity.
Qed.

(** The invariant behind mutual exclusion: each native call that returns
    keeps the native mutexes in agreement with the history. *)
Lemma native_step_agrees (m m' : gmap addr ownership) (evs : list event)
    (e : event) :
  (forall a, agrees (m !! a) (live a evs) (holders a evs)) ->
  native_step e m = Returned tt m' ->
  forall a, agrees (m' !! a) (live a (evs ++ [e])) (holders a (evs ++ [e])).
Proof.
  intros Hinv He a. rewrite live_snoc, holders_snoc.
  pose proof (Hinv a) as Ha.
  pose proof (native_step_frame e m m' a He) as Hframe.
  destruct e as [t o p]. unfold native_step, track, lives in *. cbn in *.
  destruct (decide (p = a)) as [<-|Hne].
  - destruct o; cbn in He;
      unfold mutex_init, mutex_destroy, mutex_lock, mutex_unlock in He;
      destruct (m !! p) as [[|t']|] eqn:Hm; try discriminate;
      try (destruct (decide (t' = t)) as [->|]; try discriminate);
      injection He as <-;
      rewrite ?lookup_insert_eq, ?lookup_delete_eq; cbn in *;
      destruct Ha as [Hl Hh]; rewrite ?Hh; cbn;
      rewrite ?decide_True by reflexivity; auto.
  - rewrite Hframe by exact Hne. exact Ha.
Qed.

Lemma native_run_agrees (evs : list event) (m : gmap addr ownership) :
  native_run evs ∅ = Returned tt m ->
  forall a, agrees (m !! a) (live a evs) (holders a evs).
Proof.
  revert m. induction evs as [|e evs IH] using rev_ind; intros m Hrun a.
  - injection Hrun as <-. rewrite lookup_empty. split; reflexivity.
  - apply native_run_snoc in Hrun as (m1 & Hrun & He).
    eapply native_step_agrees; [apply IH; exact Hrun | exact He].
Qed.

Lemma native_mutexes_boot (v : variant) : native_mutexes v boot = ∅.
Proof. destruct v; reflexivity. Qed.

Lemma run_agrees (v : variant) (evs : list event) (s : platform) :
  v <> null_mutex ->
  run (class_of documented v) evs boot = Returned tt s ->
  forall a, agrees (native_mutexes v s !! a) (live a evs) (holders a evs).
Proof.
  intros Hv Hrun. rewrite run_native, native_mutexes_boot in Hrun by exact Hv.
  destruct (native_run evs ∅) as [[] m| |] eqn:Hn; try discriminate.
  injection Hrun as <-. rewrite native_mutexes_set by exact Hv.
  apply native_run_agrees. exact Hn.
Qed.

Lemma agrees_holders (o : option ownership) (alive : bool) (h : list thread) :
  agrees o alive h -> h = [] \/ exists t, h = [t].
Proof. destruct o as [[|t]|]; intros [_ ->]; eauto. Qed.

(** C1: on the documented platform, in every history of calls on
    [win32_mutex] objects (or on [pthread_mutex] objects) that all
    returned, two threads that have completed [lock()] on the same object
    without a matching [unlock()] are one and the same thread. *)
Theorem mutual_exclusion (v : variant) (evs : list event) (s : platform)
    (a : addr) (t1 t2 : thread) :
  v <> null_mutex ->
  run (class_of documented v) evs boot = Returned tt s ->
  t1 ∈ holders a evs -> t2 ∈ holders a evs -> t1 = t2.
Proof.
  intros Hv Hrun H1 H2.
  destruct (agrees_holders _ _ _ (run_agrees v evs s Hv Hrun a)) as [Hh|[t Hh]];
    rewrite Hh in H1, H2.
  - inversion H1.
  - apply list_elem_of_singleton in H1, H2. congruence.
Qed.

Lemma mutual_exclusion_witness :
  exists s, run (class_of documented pthread_mutex) contended boot
            = Returned tt s /\
            holders 7%N contended = [2%nat] /\ 2%nat = 2%nat.
Proof.
  eexists. split; [vm_compute; reflexivity |].
  split; [reflexivity |].
  eapply (mutual_exclusion pthread_mutex contended _ 7%N 2%nat 2%nat).
  - discriminate.
  - vm_compute. reflexivity.
  - vm_compute. constructor.
  - vm_compute. constructor.
Defined.

(** A thread that calls [lock()] while another thread owns the object does
    not return, for either native class. *)
Example second_locker_waits (v : variant) :
  v <> null_mutex ->
  run (class_of documented v)
      two_lockers boot = Blocked.
Proof. destruct v; [reflexivity..| congruence]. Qed.

Lemma agrees_live_unowned (o : option ownership) :
  agrees o true [] -> o = Some Unowned.
Proof. destruct o as [[|t]|]; intros [Hl Hh]; congruence. Qed.

Lemma agrees_owned (o : option ownership) (alive : bool) (t : thread)
    (h : list thread) :
  agrees o alive h -> t ∈ h -> o = Some (OwnedBy t) /\ h = [t].
Proof.
  destruct o as [[|t']|]; intros [Hl ->] Hin; try solve [inversion Hin].
  apply list_elem_of_singleton in Hin as ->. split; reflexivity.
Qed.

Lemma native_classes_ownership_machine (v : variant) :
  v <> null_mutex -> ownership_machine (class_of documented v).
Proof.
  intros Hv evs s Hrun a.
  pose proof (run_agrees v evs s Hv Hrun a) as Ha.
  split; [| split; [| split; [| split]]].
  - eapply agrees_holders, Ha.
  - intros t Hl Hh. rewrite Hl, Hh in Ha. apply agrees_live_unowned in Ha.
    rewrite perform_native by exact Hv. unfold native_step, mutex_lock. cbn.
    rewrite Ha. eexists. split; [reflexivity |].
    rewrite holders_snoc, Hh. unfold track. cbn.
    rewrite decide_True by reflexivity. reflexivity.
  - intros t t' Hin Hne. destruct (agrees_owned _ _ _ _ Ha Hin) as [Ho _].
    rewrite perform_native by exact Hv. unfold native_step, mutex_lock. cbn.
    rewrite Ho, decide_False by congruence. reflexivity.
  - intros t Hin. destruct (agrees_owned _ _ _ _ Ha Hin) as [Ho Hh].
    rewrite perform_native by exact Hv. unfold native_step, mutex_unlock. cbn.
    rewrite Ho, decide_True by reflexivity. eexists. split; [reflexivity |].
    rewrite holders_snoc, Hh. unfold track. cbn.
    rewrite !decide_True by reflexivity. reflexivity.
  - intros t s' Hc.
    assert (Hh : holders a (evs ++ [Event t Construct a]) = []).
    { rewrite holders_snoc. unfold track. cbn.
      rewrite decide_True by reflexivity. reflexivity. }
    split; [exact Hh |].
    assert (Hrun' : run (class_of documented v) (evs ++ [Event t Construct a])
                        boot = Returned tt s').
    { apply run_snoc. eauto. }
    pose proof (run_agrees v _ s' Hv Hrun' a) as Ha'.
    rewrite Hh, live_snoc in Ha'. unfold lives in Ha'. cbn in Ha'.
    rewrite decide_True in Ha' by reflexivity.
    apply agrees_live_unowned in Ha'.
    rewrite perform_native by exact Hv. unfold native_step, mutex_lock. cbn.
    rewrite Ha'. eexists. reflexivity.
Qed.

(** C5, as the code has it: every [win32_mutex] and every [pthread_mutex]
    obeys the two-state ownership machine on the documented platform: a
    constructor leaves the object unowned; [lock()] makes the caller the
    owner of an unowned object and does not return while another thread
    owns it; [unlock()] by the owner leaves it unowned; and at every
    moment the object is unowned or owned by exactly one thread.  A
    [null_mutex] keeps no owner: each of its members returns at once. *)
Theorem real_locks_ownership_machine :
  ownership_machine (class_of documented win32_mutex) /\
  ownership_machine (class_of documented pthread_mutex) /\
  (forall e s, perform (class_of documented null_mutex) e s = Returned tt s).
Proof.
  split; [| split].
  - apply native_classes_ownership_machine; discriminate.
  - apply native_classes_ownership_machine; discriminate.
  - apply null_mutex_perform.
Qed.

(** C5, as stated, fails for [null_mutex]: its [lock()] returns for a
    second thread while the first one has not unlocked, and the object then
    has two owners. *)
Lemma null_mutex_no_ownership_machine :
  ~ ownership_machine (class_of documented null_mutex).
Proof.
  intros H.
  destruct (H two_lockers boot eq_refl 7%N) as [[Hh|[t Hh]] _];
    vm_compute in Hh; discriminate Hh.
Qed.

(** The same history on the two kinds of class. *)
Example two_lockers_null_mutex :
  run (class_of documented null_mutex) two_lockers boot = Returned tt boot /\
  holders 7%N two_lockers = [2%nat; 1%nat].
Proof. split; reflexivity. Qed.

(** ** Construction and destruction *)

Lemma native_run_constructions (cs : list (thread * addr))
    (m : gmap addr ownership) :
  NoDup cs.*2 ->
  (forall a, a ∈ cs.*2 -> m !! a = None) ->
  exists m', native_run (constructions cs) m = Returned tt m' /\
    forall a, m' !! a = if decide (a ∈ cs.*2) then Some Unowned else m !! a.
Proof.
  revert m. induction cs as [|[t p] cs IH]; intros m Hnd Hfresh.
  - exists m. split; [reflexivity |]. intros a.
    rewrite decide_False by (cbn; apply not_elem_of_nil). reflexivity.
  - cbn in Hnd. apply NoDup_cons in Hnd as [Hp Hnd].
    assert (Hm : m !! p = None) by (apply Hfresh; cbn; left).
    destruct (IH (<[p := Unowned]> m) Hnd) as (m' & Hrun & Hm').
    { intros a Ha. rewrite lookup_insert_ne by (intros ->; contradiction).
      apply Hfresh. cbn. right. exact Ha. }
    exists m'. split.
    + cbn. unfold bind, native_step, mutex_init. cbn. rewrite Hm. exact Hrun.
    + intros a. rewrite Hm'. cbn.
      destruct (decide (a = p)) as [->|Hne].
      * rewrite decide_False by exact Hp.
        rewrite decide_True by left. apply lookup_insert_eq.
      * rewrite lookup_insert_ne by congruence.
        destruct (decide (a ∈ cs.*2)) as [Hin|Hnin].
        -- rewrite decide_True by (right; exact Hin). reflexivity.
        -- rewrite decide_False; [reflexivity |].
           intros Hin. apply elem_of_cons in Hin as [?|?]; contradiction.
Qed.

Lemma native_run_destructions (ds : list (thread * addr))
    (m : gmap addr ownership) :
  NoDup ds.*2 ->
  (forall a, a ∈ ds.*2 -> m !! a = Some Unowned) ->
  exists m', native_run (destructions ds) m = Returned tt m' /\
    forall a, m' !! a = if decide (a ∈ ds.*2) then None else m !! a.
Proof.
  revert m. induction ds as [|[t p] ds IH]; intros m Hnd Hinit.
  - exists m. split; [reflexivity |]. intros a.
    rewrite decide_False by (cbn; apply not_elem_of_nil). reflexivity.
  - cbn in Hnd. apply NoDup_cons in Hnd as [Hp Hnd].
    assert (Hm : m !! p = Some Unowned) by (apply Hinit; cbn; left).
    destruct (IH (delete p m) Hnd) as (m' & Hrun & Hm').
    { intros a Ha. rewrite lookup_delete_ne by (intros ->; contradiction).
      apply Hinit. cbn. right. exact Ha. }
    exists m'. split.
    + cbn. unfold bind, native_step, mutex_destroy. cbn. rewrite Hm.
      exact Hrun.
    + intros a. rewrite Hm'. cbn.
      destruct (decide (a = p)) as [->|Hne].
      * rewrite decide_False by exact Hp.
        rewrite decide_True by left. apply lookup_delete_eq.
      * rewrite lookup_delete_ne by congruence.
        destruct (decide (a ∈ ds.*2)) as [Hin|Hnin].
        -- rewrite decide_True by (right; exact Hin). reflexivity.
        -- rewrite decide_False; [reflexivity |].
           intros Hin. apply elem_of_cons in Hin as [?|?]; contradiction.
Qed.

(** C7: on the documented platform, for each of the three classes,
    constructing objects at distinct addresses where no native mutex of
    the class exists yet returns; for the two native classes each object
    then has an unowned native mutex of its own, and these are all the
    new ones.  Destructing the objects afterwards, in any order, returns
    and leaves the platform exactly as it was before the constructions. *)
Theorem construct_destruct_symmetric (v : variant)
    (cs ds : list (thread * addr)) (s : platform) :
  NoDup cs.*2 ->
  (forall a, a ∈ cs.*2 -> native_mutexes v s !! a = None) ->
  ds.*2 ≡ₚ cs.*2 ->
  exists s1,
    run (class_of documented v) (constructions cs) s = Returned tt s1 /\
    (v <> null_mutex ->
     (forall a, a ∈ cs.*2 -> native_mutexes v s1 !! a = Some Unowned) /\
     dom (native_mutexes v s1)
       = dom (native_mutexes v s) ∪ list_to_set cs.*2) /\
    run (class_of documented v) (destructions ds) s1 = Returned tt s /\
    run (class_of documented v) (constructions cs ++ destructions ds) s
      = Returned tt s.
Proof.
  intros Hnd Hfresh Hperm.
  destruct (decide (v = null_mutex)) as [->|Hv].
  - exists s. rewrite !run_null_mutex. repeat split; congruence.
  - destruct (native_run_constructions cs _ Hnd Hfresh) as (m1 & Hc & Hm1).
    destruct (native_run_destructions ds m1) as (m2 & Hd & Hm2).
    { rewrite Hperm. exact Hnd. }
    { intros a Ha. rewrite Hm1, decide_True; [reflexivity |].
      rewrite <- Hperm. exact Ha. }
    assert (Hback : m2 = native_mutexes v s).
    { apply map_eq. intros a. rewrite Hm2, Hm1.
      destruct (decide (a ∈ ds.*2)) as [Hin|Hnin].
      - symmetry. apply Hfresh. rewrite <- Hperm. exact Hin.
      - rewrite decide_False; [reflexivity |]. rewrite <- Hperm. exact Hnin. }
    assert (Hrun1 : run (class_of documented v) (constructions cs) s
                    = Returned tt (set_native_mutexes v m1 s)).
    { rewrite run_native, Hc by exact Hv. reflexivity. }
    assert (Hrun2 : run (class_of documented v) (destructions ds)
                        (set_native_mutexes v m1 s) = Returned tt s).
    { rewrite run_native, native_mutexes_set, Hd by exact Hv.
      rewrite set_native_mutexes_set, Hback, set_native_mutexes_id.
      reflexivity. }
    exists (set_native_mutexes v m1 s).
    split; [exact Hrun1 |]. split; [| split; [exact Hrun2 |]].
    + intros _. rewrite native_mutexes_set by exact Hv. split.
      * intros a Ha. rewrite Hm1, decide_True by exact Ha. reflexivity.
      * apply set_eq. intros a.
        rewrite elem_of_union, !elem_of_dom, elem_of_list_to_set, Hm1.
        destruct (decide (a ∈ cs.*2)) as [Hin|Hnin].
        -- split; [intros _; right; exact Hin | intros _; eauto].
        -- split; [intros H; left; exact H | intros [H|H]; [exact H | contradiction]].
    + rewrite run_app. unfold bind. rewrite Hrun1. exact Hrun2.
Qed.

Lemma construct_destruct_symmetric_witness :
  run (class_of documented win32_mutex)
      (constructions three_objects ++ destructions three_objects_shuffled)
      boot = Returned tt boot.
Proof.
  destruct (construct_destruct_symmetric win32_mutex three_objects
              three_objects_shuffled boot) as (s1 & _ & _ & _ & H).
  - apply (bool_decide_unpack _). vm_compute. reflexivity.
  - intros a _. apply lookup_empty.
  - apply (bool_decide_unpack _). vm_compute. reflexivity.
  - exact H.
Defined.

Lemma real_locks_ownership_machine_witness :
  holders 7%N contended = [] \/ exists t, holders 7%N contended = [t].
Proof.
  destruct real_locks_ownership_machine as (_ & H & _).
  apply (H contended (Platform ∅ {[ 7%N := OwnedBy 2%nat ]})).
  vm_compute. reflexivity.
Defined.

Lemma null_mutex_members_static_witness :
  is_static "lock" (decl_of pthread_mutex) = false /\
  is_static "unlock" (decl_of pthread_mutex) = false.
Proof.
  destruct null_mutex_members_static as (_ & H & _).
  apply (H pthread_mutex). discriminate.
Defined.

(** * Further properties of the header *)

(** ** What the configuration declares and includes *)

Lemma iff_of_bool_decide (P Q : Prop) `{Decision P, Decision Q} :
  bool_decide P = bool_decide Q -> (P <-> Q).
Proof.
  intros Heq. rewrite <- (bool_decide_spec P), <- (bool_decide_spec Q), Heq.
  reflexivity.
Qed.

(** X1: in every configuration, a native class is declared exactly when
    the system header that declares its native type is included:
    [win32_mutex] with <windows.h> (lines 69-71 against 84) and
    [pthread_mutex] with <pthread.h> (lines 72-74 against 110);
    [null_mutex] is declared always, and last. *)
Theorem native_classes_have_headers (c : config) :
  (win32_mutex ∈ classes (preprocess c)
     <-> "windows.h" ∈ included_headers c) /\
  (pthread_mutex ∈ classes (preprocess c)
     <-> "pthread.h" ∈ included_headers c) /\
  last (classes (preprocess c)) = Some null_mutex.
Proof.
  split; [| split].
  - refine (iff_of_bool_decide _ _ _).
    destruct c as [[[] [] [] [] [] []] []]; vm_compute; reflexivity.
  - refine (iff_of_bool_decide _ _ _).
    destruct c as [[[] [] [] [] [] []] []]; vm_compute; reflexivity.
  - destruct c as [[[] [] [] [] [] []] []]; vm_compute; reflexivity.
Qed.

Lemma native_classes_have_headers_witness :
  "pthread.h" ∈ included_headers posix_with_threads.
Proof.
  apply (native_classes_have_headers posix_with_threads).
  vm_compute. repeat constructor.
Defined.

(** X2: the only way a build fails is the [#error] of line 65, and it
    fails exactly when BOOST_HAS_THREADS is defined on entry while
    BOOST_NO_MT, BOOST_WINDOWS, _POSIX_THREADS and BOOST_HAS_PTHREADS are
    not, and <unistd.h> is either not announced by BOOST_HAS_UNISTD_H or
    does not define _POSIX_THREADS.  In particular the typedef of lines
    151-157 never names a class that was not declared. *)
Theorem build_fails_exactly_when (c : config) (msg : string) :
  compile c = CompileError msg <->
  msg = helper_error /\
  BOOST_HAS_THREADS (on_entry c) = true /\
  BOOST_NO_MT (on_entry c) = false /\
  BOOST_WINDOWS (on_entry c) = false /\
  _POSIX_THREADS (on_entry c) = false /\
  BOOST_HAS_PTHREADS (on_entry c) = false /\
  BOOST_HAS_UNISTD_H (on_entry c) && unistd_h_defines_POSIX_THREADS c = false.
Proof.
  destruct c as [[[] [] [] [] [] []] []]; vm_compute; split;
    try discriminate;
    try (intros (_ & ? & ? & ? & ? & ? & ?); discriminate);
    try (intros [= <-]; repeat split);
    try (intros (-> & _); reflexivity).
Qed.

Lemma build_fails_exactly_when_witness :
  compile threads_without_mutexes = CompileError helper_error.
Proof.
  apply (build_fails_exactly_when threads_without_mutexes helper_error).
  repeat split.
Defined.

(** X3: a configuration in which the [#error] fires is otherwise left
    exactly like a single-threaded one: no native class is declared,
    neither <windows.h> nor <pthread.h> is included, and the [#if] of line
    151, in which the undefined BOOST_MUTEX_HELPER counts as 0, makes
    [default_mutex] name [null_mutex].  Only the diagnostic tells the two
    apart. *)
Theorem failed_build_looks_single_threaded (c : config) :
  diagnostics (preprocess c) <> [] ->
  diagnostics (preprocess c) = [helper_error] /\
  classes (preprocess c) = [null_mutex] /\
  default_mutex (preprocess c) = Some null_mutex /\
  ("windows.h" ∉ included_headers c) /\
  ("pthread.h" ∉ included_headers c) /\
  BOOST_NO_MT (macros_after (preprocess c)) = false.
Proof.
  intros Hd. split; [| split; [| split; [| split; [| split]]]];
    revert Hd.
  - destruct c as [[[] [] [] [] [] []] []]; vm_compute; intros Hd;
      try reflexivity; exfalso; apply Hd; reflexivity.
  - destruct c as [[[] [] [] [] [] []] []]; vm_compute; intros Hd;
      try reflexivity; exfalso; apply Hd; reflexivity.
  - apply error_masks_null_typedef.
  - intros Hd Hin. apply Hd. clear Hd. revert Hin.
    rewrite <- (bool_decide_spec (_ ∈ _)).
    destruct c as [[[] [] [] [] [] []] []]; vm_compute;
      solve [reflexivity | intros []].
  - intros Hd Hin. apply Hd. clear Hd. revert Hin.
    rewrite <- (bool_decide_spec (_ ∈ _)).
    destruct c as [[[] [] [] [] [] []] []]; vm_compute;
      solve [reflexivity | intros []].
  - destruct c as [[[] [] [] [] [] []] []]; vm_compute; intros Hd;
      try reflexivity; exfalso; apply Hd; reflexivity.
Qed.

Lemma failed_build_looks_single_threaded_witness :
  default_mutex (preprocess threads_without_mutexes) = Some null_mutex.
Proof.
  apply (failed_build_looks_single_threaded threads_without_mutexes).
  vm_compute. discriminate.
Defined.

(** X4: with BOOST_NO_MT defined when line 48 is reached, all native code
    is stubbed out, whatever the platform macros say: [null_mutex] is the
    only class declared, no system header is included (not <unistd.h>
    either), nothing is reported, and the header changes no macro except
    BOOST_NO_MT itself, which is defined afterwards. *)
Theorem no_mt_stubs_everything (c : config) :
  no_mt_at_selection c = true ->
  classes (preprocess c) = [null_mutex] /\
  included_headers c = ["boost/config.hpp"] /\
  diagnostics (preprocess c) = [] /\
  macros_after (preprocess c) = define_BOOST_NO_MT (on_entry c).
Proof.
  destruct c as [[[] [] [] [] [] []] []]; vm_compute; intros H;
    try discriminate H; repeat split.
Qed.

Lemma no_mt_stubs_everything_witness :
  classes (preprocess windows_no_mt) = [null_mutex] /\
  included_headers windows_no_mt = ["boost/config.hpp"] /\
  diagnostics (preprocess windows_no_mt) = [] /\
  macros_after (preprocess windows_no_mt)
    = define_BOOST_NO_MT (on_entry windows_no_mt).
Proof. apply (no_mt_stubs_everything windows_no_mt). reflexivity. Defined.

(** X5: Windows takes precedence.  With BOOST_WINDOWS defined and
    BOOST_NO_MT not, [default_mutex] is [win32_mutex] also when POSIX
    threads are available; <unistd.h> is not included, so only
    _POSIX_THREADS or BOOST_HAS_PTHREADS defined on entry make the header
    declare [pthread_mutex] as well; and the header changes no macro. *)
Theorem windows_takes_precedence (c : config) :
  no_mt_at_selection c = false ->
  BOOST_WINDOWS (on_entry c) = true ->
  compile c = Built win32_mutex /\
  ("unistd.h" ∉ included_headers c) /\
  macros_after (preprocess c) = on_entry c /\
  classes (preprocess c) =
    win32_mutex ::
    (if _POSIX_THREADS (on_entry c) || BOOST_HAS_PTHREADS (on_entry c)
     then [pthread_mutex] else []) ++ [null_mutex].
Proof.
  intros Hmt Hw. split; [| split; [| split]]; revert Hmt Hw.
  - destruct c as [[[] [] [] [] [] []] []]; vm_compute; intros Hmt Hw;
      try discriminate; reflexivity.
  - intros Hmt Hw Hin. revert Hin Hmt Hw.
    rewrite <- (bool_decide_spec (_ ∈ _)).
    destruct c as [[[] [] [] [] [] []] []]; vm_compute;
      intros Hin Hmt Hw; try discriminate; destruct Hin.
  - destruct c as [[[] [] [] [] [] []] []]; vm_compute; intros Hmt Hw;
      try discriminate; reflexivity.
  - destruct c as [[[] [] [] [] [] []] []]; vm_compute; intros Hmt Hw;
      try discriminate; reflexivity.
Qed.

Lemma windows_takes_precedence_witness :
  compile windows_with_pthreads = Built win32_mutex /\
  classes (preprocess windows_with_pthreads)
    = [win32_mutex; pthread_mutex; null_mutex].
Proof.
  destruct (windows_takes_precedence windows_with_pthreads)
    as (H1 & _ & _ & H2); [reflexivity | reflexivity |].
  split; [exact H1 | exact H2].
Defined.

(** X6: the header only ever defines macros, and only two of them.
    Afterwards BOOST_NO_MT is defined if it was, or if BOOST_HAS_THREADS
    was not; _POSIX_THREADS is defined if it was, or if <unistd.h> was
    included (no BOOST_NO_MT, no BOOST_WINDOWS, BOOST_HAS_UNISTD_H) and
    defines it; the four other macros are as on entry. *)
Theorem header_only_defines (c : config) :
  flags_le (on_entry c) (macros_after (preprocess c)) /\
  BOOST_NO_MT (macros_after (preprocess c))
    = BOOST_NO_MT (on_entry c) || negb (BOOST_HAS_THREADS (on_entry c)) /\
  _POSIX_THREADS (macros_after (preprocess c))
    = _POSIX_THREADS (on_entry c)
      || (negb (no_mt_at_selection c) && negb (BOOST_WINDOWS (on_entry c))
          && BOOST_HAS_UNISTD_H (on_entry c)
          && unistd_h_defines_POSIX_THREADS c).
Proof.
  destruct c as [[[] [] [] [] [] []] []]; vm_compute;
    repeat split; intros; congruence.
Qed.

(** X7: the configuration is stable.  A later pass that starts from the
    macros the header left behind reports the same, declares the same
    classes, names the same class [default_mutex], includes the same
    headers and leaves the same macros. *)
Theorem reprocess_same (c : config) :
  preprocess (reprocess c) = preprocess c /\
  included_headers (reprocess c) = included_headers c /\
  compile (reprocess c) = compile c.
Proof.
  destruct c as [[[] [] [] [] [] []] []]; vm_compute; repeat split.
Qed.

(** X8: defining BOOST_NO_MT before the header always builds, with
    [null_mutex] (the advice of the message of line 65), and it changes
    the outcome of the build unless the header would have defined
    BOOST_NO_MT itself: a program that defines it in some translation
    units only gets different classes behind [default_mutex] (header,
    lines 26-27). *)
Theorem define_no_mt_changes_build (c : config) :
  compile (with_BOOST_NO_MT c) = Built null_mutex /\
  classes (preprocess (with_BOOST_NO_MT c)) = [null_mutex] /\
  (compile (with_BOOST_NO_MT c) = compile c <-> no_mt_at_selection c = true) /\
  (forall v, compile c = Built v -> v <> null_mutex ->
     default_mutex (preprocess (with_BOOST_NO_MT c))
       <> default_mutex (preprocess c)).
Proof.
  split; [| split; [| split]].
  - destruct c as [[[] [] [] [] [] []] []]; vm_compute; reflexivity.
  - destruct c as [[[] [] [] [] [] []] []]; vm_compute; reflexivity.
  - destruct c as [[[] [] [] [] [] []] []]; vm_compute; split;
      intros H; try discriminate H; reflexivity.
  - intros v. destruct c as [[[] [] [] [] [] []] []]; vm_compute;
      intros Hv Hne; try discriminate Hv; try discriminate;
      injection Hv as <-; exfalso; apply Hne; reflexivity.
Qed.

Lemma define_no_mt_changes_build_witness :
  default_mutex (preprocess (with_BOOST_NO_MT posix_with_threads))
    <> default_mutex (preprocess posix_with_threads).
Proof.
  destruct (define_no_mt_changes_build posix_with_threads) as (_ & _ & _ & H).
  apply (H pthread_mutex); [reflexivity | discriminate].
Defined.

(** ** Objects do not interfere *)

Lemma native_run_app (evs1 evs2 : list event) (m : gmap addr ownership) :
  native_run (evs1 ++ evs2) m = (native_run evs1 ;;; native_run evs2) m.
Proof.
  revert m. induction evs1 as [|e evs1 IH]; intros m; cbn [app native_run].
  - reflexivity.
  - unfold bind in *. destruct (native_step e m) as [[] m1| |];
      try reflexivity.
    apply IH.
Qed.

Lemma native_run_frame (evs : list event) (m m' : gmap addr ownership)
    (a : addr) :
  native_run evs m = Returned tt m' -> elsewhere a evs -> m' !! a = m !! a.
Proof.
  revert m. induction evs as [|e evs IH]; intros m Hrun Hels.
  - injection Hrun as <-. reflexivity.
  - apply Forall_cons in Hels as [He Hels]. cbn [native_run] in Hrun.
    apply bind_returned in Hrun as ([] & m1 & Hstep & Hrun).
    rewrite (IH m1 Hrun Hels). eapply native_step_frame; eassumption.
Qed.

Lemma native_mutexes_set_other (v v' : variant) (m : gmap addr ownership)
    (s : platform) :
  v' <> v -> native_mutexes v' (set_native_mutexes v m s) = native_mutexes v' s.
Proof. destruct v, v'; intros H; try reflexivity; congruence. Qed.

(** X9: isolation.  On the documented platform, a history of calls on
    objects of one native class that all returned has left the native
    mutex of every object it did not name as it was (also its absence),
    and has not touched the native mutexes of the other class. *)
Theorem calls_elsewhere_leave_object (v : variant) (evs : list event)
    (s s' : platform) :
  v <> null_mutex ->
  run (class_of documented v) evs s = Returned tt s' ->
  (forall a, elsewhere a evs ->
     native_mutexes v s' !! a = native_mutexes v s !! a) /\
  (forall v', v' <> v -> native_mutexes v' s' = native_mutexes v' s).
Proof.
  intros Hv Hrun. rewrite run_native in Hrun by exact Hv.
  destruct (native_run evs (native_mutexes v s)) as [[] m| |] eqn:Hn;
    try discriminate.
  injection Hrun as <-. split.
  - intros a Hels. rewrite native_mutexes_set by exact Hv.
    eapply native_run_frame; eassumption.
  - intros v' Hne. apply native_mutexes_set_other. exact Hne.
Qed.

Lemma calls_elsewhere_leave_object_witness :
  exists s', run (class_of documented win32_mutex) busy_elsewhere boot
             = Returned tt s' /\
             native_mutexes win32_mutex s' !! 7%N = None /\
             native_mutexes pthread_mutex s' = ∅.
Proof.
  exists (Platform (<[2%N := OwnedBy 2%nat]> {[ 1%N := Unowned ]}) ∅).
  split; [vm_compute; reflexivity |].
  destruct (calls_elsewhere_leave_object win32_mutex busy_elsewhere boot
              (Platform (<[2%N := OwnedBy 2%nat]> {[ 1%N := Unowned ]}) ∅))
    as [H1 H2].
  - discriminate.
  - vm_compute. reflexivity.
  - split.
    + transitivity (native_mutexes win32_mutex boot !! 7%N);
        [| reflexivity].
      apply (H1 7%N). repeat constructor; cbn; discriminate.
    + apply (H2 pthread_mutex). discriminate.
Defined.

Lemma native_step_insert (e : event) (a : addr) (x : ownership)
    (m : gmap addr ownership) :
  ev_this e <> a ->
  native_step e (<[a := x]> m) = lift_insert a x (native_step e m).
Proof.
  destruct e as [t o p]. unfold native_step. cbn. intros Hne.
  destruct o; cbn;
    unfold mutex_init, mutex_destroy, mutex_lock, mutex_unlock;
    rewrite lookup_insert_ne by congruence;
    destruct (m !! p) as [[|t']|]; cbn; try reflexivity;
    try (destruct (decide (t' = t)); cbn; try reflexivity);
    f_equal;
    first [apply insert_insert_ne; exact Hne
          | apply delete_insert_ne; exact Hne].
Qed.

Lemma native_run_insert (evs : list event) (a : addr) (x : ownership)
    (m : gmap addr ownership) :
  elsewhere a evs ->
  native_run evs (<[a := x]> m) = lift_insert a x (native_run evs m).
Proof.
  revert m. induction evs as [|e evs IH]; intros m Hels.
  - reflexivity.
  - apply Forall_cons in Hels as [He Hels]. cbn [native_run]. unfold bind.
    rewrite native_step_insert by exact He.
    destruct (native_step e m) as [[] m1| |]; cbn; try reflexivity.
    apply IH. exact Hels.
Qed.

Lemma native_critical_section (a : addr) (t : thread) (evs : list event)
    (m : gmap addr ownership) :
  m !! a = Some Unowned -> elsewhere a evs ->
  native_run (Event t Lock a :: evs ++ [Event t Unlock a]) m
  = native_run evs m.
Proof.
  intros Hm Hels. cbn [native_run]. unfold bind at 1.
  unfold native_step at 1. cbn. unfold mutex_lock. rewrite Hm.
  rewrite native_run_app. unfold bind.
  rewrite native_run_insert by exact Hels.
  destruct (native_run evs m) as [[] m'| |] eqn:Hrun; cbn; try reflexivity.
  unfold bind, native_step, mutex_unlock. cbn.
  rewrite lookup_insert_eq, decide_True by reflexivity. cbn.
  rewrite insert_insert_eq, insert_id; [reflexivity |].
  rewrite (native_run_frame evs m m' a Hrun Hels). exact Hm.
Qed.

(** X10: a critical section is invisible to the other objects.  On the
    documented platform, if a thread locks a live unowned object of a
    native class, any calls on other objects of the class follow, and the
    thread unlocks, then the whole history ends exactly as the calls in
    between end on their own: with the same platform state if they return,
    blocked if they block.  With no calls in between, [lock()] followed by
    [unlock()] restores the platform. *)
Theorem critical_section_transparent (v : variant) (a : addr) (t : thread)
    (evs : list event) (s : platform) :
  v <> null_mutex ->
  native_mutexes v s !! a = Some Unowned ->
  elsewhere a evs ->
  run (class_of documented v) (Event t Lock a :: evs ++ [Event t Unlock a]) s
  = run (class_of documented v) evs s.
Proof.
  intros Hv Hm Hels. rewrite !run_native by exact Hv.
  rewrite native_critical_section by assumption. reflexivity.
Qed.

Lemma critical_section_transparent_witness :
  run (class_of documented pthread_mutex)
      [Event 1%nat Lock 7%N; Event 1%nat Unlock 7%N]
      (Platform ∅ {[ 7%N := Unowned ]})
  = Returned tt (Platform ∅ {[ 7%N := Unowned ]}).
Proof.
  apply (critical_section_transparent pthread_mutex 7%N 1%nat []
           (Platform ∅ {[ 7%N := Unowned ]})).
  - discriminate.
  - reflexivity.
  - constructor.
Defined.

(** ** The wrappers and the platform *)

(** X11: [win32_mutex] uses the four critical-section functions and
    nothing else of the platform: on two platforms that agree on these
    four, every history of calls on [win32_mutex] objects ends the same
    way, whatever the platforms' pthread functions do. *)
Theorem win32_mutex_needs_critical_sections_only (os1 os2 : native_api) :
  (forall p t s, InitializeCriticalSection os1 p t s
                 = InitializeCriticalSection os2 p t s) ->
  (forall p t s, DeleteCriticalSection os1 p t s
                 = DeleteCriticalSection os2 p t s) ->
  (forall p t s, EnterCriticalSection os1 p t s
                 = EnterCriticalSection os2 p t s) ->
  (forall p t s, LeaveCriticalSection os1 p t s
                 = LeaveCriticalSection os2 p t s) ->
  forall evs s,
    run (class_of os1 win32_mutex) evs s = run (class_of os2 win32_mutex) evs s.
Proof.
  intros Hi Hd He Hl evs. induction evs as [|e evs IH]; intros s.
  - reflexivity.
  - cbn [run]. unfold bind.
    assert (Hp : perform (class_of os1 win32_mutex) e s
                 = perform (class_of os2 win32_mutex) e s).
    { destruct e as [t [] a]; cbn; [apply Hi | apply Hd | apply He | apply Hl]. }
    rewrite Hp. destruct (perform (class_of os2 win32_mutex) e s);
      try reflexivity. apply IH.
Qed.

Lemma win32_mutex_needs_critical_sections_only_witness :
  run (class_of documented win32_mutex) contended boot
  = run (class_of (win32_only documented) win32_mutex) contended boot.
Proof.
  apply (win32_mutex_needs_critical_sections_only documented
           (win32_only documented)); intros; reflexivity.
Defined.

(** X12: [pthread_mutex] never looks at a status code, in any history.  On
    two platforms whose pthread functions, called with a null attribute
    pointer for [pthread_mutex_init], end alike up to the status they
    report, every history of calls on [pthread_mutex] objects ends the
    same way: a call that reported a failure changes nothing for the
    calls after it, and the critical-section functions play no part. *)
Theorem pthread_mutex_ignores_status (os1 os2 : native_api) :
  (forall p t s, drop_status (pthread_mutex_init os1 p 0 t s)
                 = drop_status (pthread_mutex_init os2 p 0 t s)) ->
  (forall p t s, drop_status (pthread_mutex_destroy os1 p t s)
                 = drop_status (pthread_mutex_destroy os2 p t s)) ->
  (forall p t s, drop_status (pthread_mutex_lock os1 p t s)
                 = drop_status (pthread_mutex_lock os2 p t s)) ->
  (forall p t s, drop_status (pthread_mutex_unlock os1 p t s)
                 = drop_status (pthread_mutex_unlock os2 p t s)) ->
  forall evs s,
    run (class_of os1 pthread_mutex) evs s
    = run (class_of os2 pthread_mutex) evs s.
Proof.
  intros Hi Hd He Hl evs. induction evs as [|e evs IH]; intros s.
  - reflexivity.
  - cbn [run]. unfold bind.
    assert (Hp : perform (class_of os1 pthread_mutex) e s
                 = perform (class_of os2 pthread_mutex) e s).
    { destruct e as [t [] a]; cbn;
        unfold pthread_mutex.ctor, pthread_mutex.dtor, pthread_mutex.lock,
          pthread_mutex.unlock;
        rewrite !drop_status_bind;
        [apply Hi | apply Hd | apply He | apply Hl]. }
    rewrite Hp. destruct (perform (class_of os2 pthread_mutex) e s);
      try reflexivity. apply IH.
Qed.

Lemma misreporting_drop_status (f : platform -> outcome platform Z)
    (s : platform) :
  drop_status (f s) = drop_status ((f ;;; ret ENOMEM) s).
Proof. unfold bind, ret. destruct (f s); reflexivity. Qed.

Lemma pthread_mutex_ignores_status_witness :
  run (class_of documented pthread_mutex) contended boot
  = run (class_of (misreporting documented) pthread_mutex) contended boot.
Proof.
  apply (pthread_mutex_ignores_status documented (misreporting documented));
    intros; apply misreporting_drop_status.
Defined.

(** ** Which call may come next *)



